(** * parse_fit.py: a diagnostic dump of developer fields in a FIT file

    The script opens a FIT file through the [fitparse] library and prints
    three sections on standard output: the record messages that carry
    developer fields, the field_description messages and the
    developer_data_id messages.

    The development has three layers:
    - [Py]: the fragment of Python the script relies on (text, truthiness,
      attribute lookup, exceptions, [print]);
    - [Fit]: the objects handed over by the FIT decoder;
    - [ParseFit]: the script itself, statement by statement, followed by the
      properties proved about it. *)

From Stdlib Require Import Ascii String DecimalString DecimalNat.
From stdpp Require Import base option list gmap strings.

Local Open Scope N_scope.
Local Open Scope list_scope.

(** ** Python fragment *)

Module Py.

(** A Python [str] is a sequence of Unicode code points. *)
Definition codepoint : Type := N.
Definition pystr : Type := list codepoint.

(** String literals of the script, written in ASCII. *)
Definition lit (s : string) : pystr :=
  map N_of_ascii (list_ascii_of_string s).

(** The line-feed character, written [\n] in the source. *)
Definition LF : codepoint := 10.

(** [x in s] on two strings: [x] occurs in [s] as a contiguous run. *)
Fixpoint startswith (s x : pystr) {struct x} : bool :=
  match x, s with
  | [], _ => true
  | _ :: _, [] => false
  | a :: x', b :: s' => (a =? b) && startswith s' x'
  end.

Fixpoint contains (s x : pystr) : bool :=
  startswith s x ||
  match s with
  | [] => false
  | _ :: s' => contains s' x
  end.

Section Lower.

(** [str.lower()]. ASCII letters are mapped by the fixed ASCII rule. The
    mapping of a code point outside ASCII comes from the Unicode database
    of the interpreter: it may yield several code points and may depend on
    the text around it (final sigma). It is taken as a parameter, applied
    to the text before the code point, the code point, and the text after
    it. *)
Variable unicode_lower : pystr -> codepoint -> pystr -> pystr.

Definition is_ascii_upper (c : codepoint) : bool := (65 <=? c) && (c <=? 90).

Definition lower_at (before : pystr) (c : codepoint) (after : pystr) : pystr :=
  if is_ascii_upper c then [c + 32]
  else if c <? 128 then [c]
  else unicode_lower before c after.

Fixpoint lower_from (before s : pystr) : pystr :=
  match s with
  | [] => []
  | c :: rest => lower_at before c rest ++ lower_from (before ++ [c]) rest
  end.

Definition lower (s : pystr) : pystr := lower_from [] s.

End Lower.

(** ASCII-only case folding, used to describe "in any case" for ASCII
    words independently of [lower]. *)
Definition ascii_fold (c : codepoint) : codepoint :=
  if is_ascii_upper c then c + 32 else c.

(** Values the decoder hands over. Only two observations are made on a
    value by the script: its default text conversion and its truth value.
    Values of types whose conversion is not modelled (float, datetime,
    tuple, ...) carry both. *)
Inductive pyvalue : Type :=
| PyNone
| PyBool (b : bool)
| PyInt (z : Z)
| PyStr (s : pystr)
| PyOther (truth : bool) (text : pystr).

Definition str_of_nat (n : nat) : pystr :=
  lit (NilEmpty.string_of_uint (Nat.to_uint n)).

Definition str_of_Z (z : Z) : pystr :=
  lit (NilEmpty.string_of_int (Z.to_int z)).

(** [str(v)], which is what an f-string placeholder [{v}] inserts. *)
Definition str (v : pyvalue) : pystr :=
  match v with
  | PyNone => lit "None"
  | PyBool true => lit "True"
  | PyBool false => lit "False"
  | PyInt z => str_of_Z z
  | PyStr s => s
  | PyOther _ text => text
  end.

(** [bool(v)]. *)
Definition truthy (v : pyvalue) : bool :=
  match v with
  | PyNone => false
  | PyBool b => b
  | PyInt z => negb (Z.eqb z 0)
  | PyStr s => negb (bool_decide (s = []))
  | PyOther truth _ => truth
  end.

(** An attribute that is a string or [None] (a field's name, its units). *)
Definition opt_str (o : option pystr) : pyvalue :=
  match o with
  | Some s => PyStr s
  | None => PyNone
  end.

(** [(x or "")] for an [x] that is a string or [None]. *)
Definition or_empty (o : option pystr) : pystr :=
  if truthy (opt_str o) then default [] o else [].

(** [bool(l)] for a list. *)
Definition list_truthy {A} (l : list A) : bool :=
  match l with
  | [] => false
  | _ :: _ => true
  end.

(** An object seen through its attributes. [obj_truth] is the object's
    truth value: [True] for an ordinary instance, possibly [False] for one
    whose class defines [__bool__] or [__len__]. *)
Record pyobject : Type := PyObject {
  obj_truth : bool;
  obj_attrs : gmap string pyvalue
}.

(** Exceptions. *)
Inductive exn : Type :=
| AttributeError (attr : string).

Inductive result (A : Type) : Type :=
| Ok (a : A)
| Raise (e : exn).
Arguments Ok {A} a.
Arguments Raise {A} e.

#[global] Instance result_ret : MRet result := fun A a => Ok a.
#[global] Instance result_bind : MBind result := fun A B k r =>
  match r with
  | Ok a => k a
  | Raise e => Raise e
  end.

Definition hasattr (o : pyobject) (a : string) : bool :=
  bool_decide (is_Some (obj_attrs o !! a)).

(** [o.a]: raises [AttributeError] when the attribute is missing. *)
Definition getattr (o : pyobject) (a : string) : result pyvalue :=
  match obj_attrs o !! a with
  | Some v => Ok v
  | None => Raise (AttributeError a)
  end.

(** [[x for x in xs if cond(x)]], where evaluating the condition may raise. *)
Fixpoint comprehension {A} (cond : A -> result bool) (xs : list A)
  : result (list A) :=
  match xs with
  | [] => Ok []
  | x :: rest =>
      b ← cond x;
      kept ← comprehension cond rest;
      Ok (if b : bool then x :: kept else kept)
  end.

(** Standard output is the sequence of the arguments of the [print] calls
    made so far, the earliest first. A statement takes the output written so
    far and yields the output after it, together with its result or the
    exception that interrupted it. *)
Definition stdout : Type := list pystr.

Definition IO (A : Type) : Type := stdout -> stdout * result A.

#[global] Instance IO_ret : MRet IO := fun A a out => (out, Ok a).
#[global] Instance IO_bind : MBind IO := fun A B k m out =>
  match m out with
  | (out', Ok a) => k a out'
  | (out', Raise e) => (out', Raise e)
  end.

Definition print (s : pystr) : IO unit := fun out => (out ++ [s], Ok tt).

Definition lift {A} (r : result A) : IO A := fun out => (out, r).

(** [for x in xs: body(x)] *)
Fixpoint for_each {A} (xs : list A) (body : A -> IO unit) : IO unit :=
  match xs with
  | [] => mret tt
  | x :: rest => body x ≫= fun _ => for_each rest body
  end.

(** [enumerate(xs)] *)
Fixpoint enumerate_from {A} (i : nat) (xs : list A) : list (nat * A) :=
  match xs with
  | [] => []
  | x :: rest => (i, x) :: enumerate_from (S i) rest
  end.

Definition enumerate {A} (xs : list A) : list (nat * A) := enumerate_from 0 xs.

(** The text that reaches the terminal: every [print] writes its argument
    and a line feed. *)
Definition text_of (out : stdout) : pystr :=
  concat (map (fun s => s ++ [LF]) out).

End Py.

(** ** The decoder's objects *)

Module Fit.
Import Py.

(** A decoded field. [field] is the field's definition object, [None]
    when the decoder has no definition for it; the developer-origin
    indicator, when there is one, is the attribute [is_developer] of that
    object. *)
Record FieldData : Type := {
  field : option pyobject;
  name : option pystr;
  value : pyvalue;
  units : option pystr
}.

(** A decoded message, tagged with the name of its message type. *)
Record Message : Type := {
  type_name : string;
  fields : list FieldData
}.

(** A decoded file: its messages in file order. *)
Record FitFile : Type := {
  messages : list Message
}.

(** Modelled from the spec: [get_messages] belongs to the decoding library,
    which is not part of the repository. It yields the messages of the given
    type, in file order. *)
Definition get_messages (fitfile : FitFile) (wanted : string) : list Message :=
  List.filter (fun m => bool_decide (type_name m = wanted)) (messages fitfile).

(** Modelled from the spec: [get_value] belongs to the decoding library,
    which is not part of the repository. It returns the value of the
    message's field of the given name, and [None] when the message has no
    such field. *)
Definition get_value (m : Message) (field_name : pystr) : pyvalue :=
  match List.find (fun f => bool_decide (name f = Some field_name)) (fields m) with
  | Some f => value f
  | None => PyNone
  end.

End Fit.

(** ** The script *)

Module ParseFit.
Import Py Fit.

Section Script.

Variable unicode_lower : pystr -> codepoint -> pystr -> pystr.
Local Abbreviation lower := (Py.lower unicode_lower).

(** [f.field and hasattr(f.field, "is_developer") and f.field.is_developer] *)
Definition developer_cond (f : FieldData) : result bool :=
  match field f with
  | None => Ok false
  | Some d =>
      if obj_truth d then
        if hasattr d "is_developer" then
          v ← getattr d "is_developer";
          Ok (truthy v)
        else Ok false
      else Ok false
  end.

(** ["lactate" in (f.name or "").lower() or "Lactate" in (f.name or "")] *)
Definition lactate_cond (f : FieldData) : bool :=
  contains (lower (or_empty (name f))) (lit "lactate")
  || contains (or_empty (name f)) (lit "Lactate").

(** The two assignments to [dev_fields]. The condition of the second
    comprehension is a parameter, so that one can tell whether it is
    evaluated at all. *)
Definition select_dev_fields (fallback : FieldData -> result bool)
    (record : Message) : result (list FieldData) :=
  dev_fields ← comprehension developer_cond (fields record);
  if negb (list_truthy dev_fields) then
    (* Also check by name *)
    comprehension fallback (fields record)
  else Ok dev_fields.

Definition dev_fields (record : Message) : result (list FieldData) :=
  select_dev_fields (fun f => Ok (lactate_cond f)) record.

(** [f"Record #{i} timestamp={ts}"] *)
Definition record_header (i : nat) (ts : pyvalue) : pystr :=
  lit "Record #" ++ str_of_nat i ++ lit " timestamp=" ++ str ts.

(** [f"  {f.name}: {f.value} ({f.units})"] *)
Definition field_line_units (f : FieldData) : pystr :=
  lit "  " ++ str (opt_str (name f)) ++ lit ": " ++ str (value f)
  ++ lit " (" ++ str (opt_str (units f)) ++ lit ")".

(** [f"  {f.name}: {f.value}"] *)
Definition field_line (f : FieldData) : pystr :=
  lit "  " ++ str (opt_str (name f)) ++ lit ": " ++ str (value f).

(** Body of the loop over the record messages. *)
Definition record_step (i : nat) (record : Message) : IO unit :=
  dev ← lift (dev_fields record);
  if list_truthy dev then
    let ts := get_value record (lit "timestamp") in
    print (record_header i ts);;
    for_each (fields record) (fun f => print (field_line_units f));;
    print []
  else mret tt.

Definition records_banner : pystr :=
  lit "=== ALL RECORD MESSAGES WITH DEVELOPER FIELDS ===" ++ [LF].
Definition field_description_banner : pystr :=
  [LF] ++ lit "=== ALL DEVELOPER FIELD DESCRIPTION MESSAGES ===" ++ [LF].
Definition developer_data_id_banner : pystr :=
  [LF] ++ lit "=== ALL DEVELOPER DATA ID MESSAGES ===" ++ [LF].

Definition records_section (fitfile : FitFile) : IO unit :=
  print records_banner;;
  for_each (enumerate (get_messages fitfile "record"))
    (fun '(i, record) => record_step i record).

Definition field_description_section (fitfile : FitFile) : IO unit :=
  print field_description_banner;;
  for_each (get_messages fitfile "field_description") (fun msg =>
    print (lit "Field Description:");;
    for_each (fields msg) (fun f => print (field_line f));;
    print []).

Definition developer_data_id_section (fitfile : FitFile) : IO unit :=
  print developer_data_id_banner;;
  for_each (get_messages fitfile "developer_data_id") (fun msg =>
    print (lit "Developer Data ID:");;
    for_each (fields msg) (fun f => print (field_line f));;
    print []).

(** The script, once the file has been opened and decoded. *)
Definition main (fitfile : FitFile) : IO unit :=
  records_section fitfile;;
  field_description_section fitfile;;
  developer_data_id_section fitfile.

End Script.

End ParseFit.

(** ** The report, as a function of the decoded file

    What follows describes the output without effects: which records are
    reported and the lines of each entry. The script is proved to print
    exactly this. *)

Module Report.
Import Py Fit ParseFit.

(** The developer-origin indicator of a field: a boolean that may be
    absent. It is carried by the field's definition object, so it is absent
    when that object is absent (or false), and when the object has no
    attribute [is_developer]. *)
Definition developer_indicator (f : FieldData) : option bool :=
  d ← field f;
  if obj_truth d then truthy <$> obj_attrs d !! "is_developer" else None.

Definition is_developer (f : FieldData) : bool :=
  bool_decide (developer_indicator f = Some true).

(** The field's definition object is [None] or false. *)
Definition definition_absent (f : FieldData) : bool :=
  match field f with
  | None => true
  | Some d => negb (obj_truth d)
  end.

Section Report.

Variable unicode_lower : pystr -> codepoint -> pystr -> pystr.

(** The name contains "lactate", whatever the case of its letters. *)
Definition mentions_lactate (s : pystr) : bool :=
  contains (lower unicode_lower s) (lit "lactate").

Definition developer_fields (record : Message) : list FieldData :=
  List.filter is_developer (fields record).

Definition lactate_fields (record : Message) : list FieldData :=
  List.filter (lactate_cond unicode_lower) (fields record).

Definition reported (record : Message) : bool :=
  list_truthy (developer_fields record) || list_truthy (lactate_fields record).

(** The entry of a reported record: its index and timestamp, its fields,
    a blank line. *)
Definition record_entry (i : nat) (record : Message) : stdout :=
  record_header i (get_value record (lit "timestamp"))
  :: map field_line_units (fields record) ++ [[]].

Fixpoint records_report (i : nat) (records : list Message) : stdout :=
  match records with
  | [] => []
  | record :: rest =>
      (if reported record then record_entry i record else [])
      ++ records_report (S i) rest
  end.

(** The entry of a message of the two metadata sections. *)
Definition message_entry (header : pystr) (msg : Message) : stdout :=
  header :: map field_line (fields msg) ++ [[]].

Definition field_description_report (fitfile : FitFile) : stdout :=
  field_description_banner
  :: concat (map (message_entry (lit "Field Description:"))
                 (get_messages fitfile "field_description")).

Definition developer_data_id_report (fitfile : FitFile) : stdout :=
  developer_data_id_banner
  :: concat (map (message_entry (lit "Developer Data ID:"))
                 (get_messages fitfile "developer_data_id")).

Definition report (fitfile : FitFile) : stdout :=
  records_banner :: records_report 0 (get_messages fitfile "record")
  ++ field_description_report fitfile
  ++ developer_data_id_report fitfile.

End Report.

(** What the script reads of a field: its name, the text of its value, its
    units, and whether the first filter takes it for a developer field. *)
Definition observed (f : FieldData) : option pystr * pystr * option pystr * bool :=
  (name f, str (value f), units f, is_developer f).

Definition observed_message (msg : Message) : list (option pystr * pystr * option pystr * bool) :=
  map observed (fields msg).

(** A decimal digit. *)
Definition is_digit (c : codepoint) : Prop := 48 <= c <= 57.

(** A heading is a printed line that is not empty and does not start with a
    space: no field line and no blank line is one. *)
Definition heading (h : pystr) : Prop :=
  match h with
  | [] => False
  | c :: _ => c <> 32
  end.

(** A printed line that starts like the header of a record entry. *)
Definition is_record_line (l : pystr) : bool := startswith l (lit "Record #").

(** Number of [print] calls whose argument is [s]. *)
Definition count_prints (s : pystr) (out : stdout) : nat :=
  length (List.filter (fun x => bool_decide (x = s)) out).

End Report.

(** ** Sample inputs *)

Module Fixtures.
Import Py Fit.

(** A lowering of the code points outside ASCII that covers the capital
    letters of Latin-1 and leaves every other code point alone. *)
Definition latin1_lower (before : pystr) (c : codepoint) (after : pystr) : pystr :=
  if (192 <=? c) && (c <=? 222) && negb (c =? 215) then [c + 32] else [c].

(** A field definition flagged as a developer field, one that is not, one
    without the indicator, and a false object that carries a true
    indicator. *)
Definition developer_definition : pyobject :=
  PyObject true {[ "is_developer" := PyBool true ]}.
Definition standard_definition : pyobject :=
  PyObject true {[ "is_developer" := PyBool false ]}.
Definition plain_definition : pyobject :=
  PyObject true {[ "def_num" := PyInt 3 ]}.
Definition false_definition : pyobject :=
  PyObject false {[ "is_developer" := PyBool true ]}.

Definition timestamp_field : FieldData :=
  {| field := Some standard_definition; name := Some (lit "timestamp");
     value := PyOther true (lit "2024-05-01 10:00:00"); units := None |}.
Definition heart_rate_field : FieldData :=
  {| field := Some plain_definition; name := Some (lit "heart_rate");
     value := PyInt 142; units := Some (lit "bpm") |}.
Definition core_temperature_field : FieldData :=
  {| field := Some developer_definition; name := Some (lit "core_temperature");
     value := PyOther true (lit "37.4"); units := Some (lit "C") |}.
Definition lactate_threshold_field : FieldData :=
  {| field := None; name := Some (lit "Lactate Threshold");
     value := PyOther true (lit "1.5"); units := Some (lit "mmol/L") |}.
Definition unnamed_field : FieldData :=
  {| field := None; name := None; value := PyNone; units := None |}.
Definition hidden_lactate_field : FieldData :=
  {| field := Some false_definition; name := Some (lit "blood_LACTATE");
     value := PyInt 2; units := None |}.

Definition plain_record : Message :=
  {| type_name := "record"; fields := [timestamp_field; heart_rate_field] |}.
Definition developer_record : Message :=
  {| type_name := "record"; fields := [timestamp_field; core_temperature_field] |}.
Definition lactate_record : Message :=
  {| type_name := "record"; fields := [heart_rate_field; lactate_threshold_field] |}.
Definition hidden_record : Message :=
  {| type_name := "record"; fields := [hidden_lactate_field; unnamed_field] |}.

Definition description_message : Message :=
  {| type_name := "field_description";
     fields := [ {| field := Some plain_definition; name := Some (lit "field_name");
                    value := PyStr (lit "core_temperature"); units := None |};
                 {| field := Some plain_definition; name := Some (lit "units");
                    value := PyStr (lit "C"); units := None |} ] |}.
Definition data_id_message : Message :=
  {| type_name := "developer_data_id";
     fields := [ {| field := Some plain_definition; name := Some (lit "developer_data_index");
                    value := PyInt 0; units := None |} ] |}.
Definition file_id_message : Message :=
  {| type_name := "file_id";
     fields := [ {| field := Some plain_definition; name := Some (lit "type");
                    value := PyStr (lit "activity"); units := None |} ] |}.

Definition second_description_message : Message :=
  {| type_name := "field_description";
     fields := [ {| field := None; name := Some (lit "field_name");
                    value := PyStr (lit "lactate"); units := None |};
                 {| field := None; name := None;
                    value := PyInt 1; units := Some (lit "mmol/L") |} ] |}.
Definition second_data_id_message : Message :=
  {| type_name := "developer_data_id";
     fields := [ {| field := Some plain_definition; name := Some (lit "application_id");
                    value := PyOther true (lit "(1, 2, 3)"); units := None |};
                 {| field := Some plain_definition; name := Some (lit "developer_data_index");
                    value := PyInt 1; units := None |} ] |}.

Definition sample_file : FitFile :=
  {| messages := [ file_id_message; data_id_message; description_message;
                   plain_record; developer_record; lactate_record ] |}.
(** A file with two messages of each metadata type, interleaved. *)
Definition metadata_file : FitFile :=
  {| messages := [ data_id_message; description_message; plain_record;
                   second_description_message; second_data_id_message ] |}.
Definition plain_file : FitFile :=
  {| messages := [ file_id_message; plain_record; description_message ] |}.
(** The record [plain_record] as another decoder could hand it over: no
    definition object for the timestamp, and the heart rate as a value of
    another type with the same text. *)
Definition plain_record_again : Message :=
  {| type_name := "record";
     fields := [ {| field := None; name := Some (lit "timestamp");
                    value := PyStr (lit "2024-05-01 10:00:00"); units := None |};
                 {| field := Some standard_definition; name := Some (lit "heart_rate");
                    value := PyOther false (lit "142"); units := Some (lit "bpm") |} ] |}.
(** The messages of [sample_file] in another interleaving, without the
    message of a type the script does not ask for. *)
Definition reordered_file : FitFile :=
  {| messages := [ plain_record_again; description_message; developer_record;
                   data_id_message; lactate_record ] |}.

End Fixtures.

(** ** Facts about the Python fragment *)

Module PyFacts.
Import Py.

Lemma startswith_spec (x s : pystr) :
  startswith s x = true <-> exists r, s = x ++ r.
Proof.
  revert s. induction x as [|a x IH]; intros s; simpl.
  - split; [intros _; exists s; reflexivity | reflexivity].
  - destruct s as [|b s].
    + split; [discriminate | intros [r Hr]; discriminate].
    + rewrite andb_true_iff, N.eqb_eq, IH. split.
      * intros [-> [r ->]]. exists r. reflexivity.
      * intros [r Hr]. injection Hr as -> ->. split; [reflexivity | exists r; reflexivity].
Qed.

Lemma contains_spec (s x : pystr) :
  contains s x = true <-> exists l r, s = l ++ x ++ r.
Proof.
  induction s as [|b s IH].
  - simpl. rewrite orb_false_r, startswith_spec. split.
    + intros [r Hr]. exists [], r. exact Hr.
    + intros [l [r Hr]]. destruct l; [exists r; exact Hr | discriminate].
  - cbn [contains]. rewrite orb_true_iff, startswith_spec, IH. split.
    + intros [[r Hr] | [l [r Hr]]].
      * exists [], r. exact Hr.
      * exists (b :: l), r. rewrite Hr. reflexivity.
    + intros [l [r Hr]]. destruct l as [|c l].
      * left. exists r. exact Hr.
      * right. injection Hr as _ Hr. exists l, r. exact Hr.
Qed.

Section Lower.

Variable unicode_lower : pystr -> codepoint -> pystr -> pystr.
Local Abbreviation lower_from := (Py.lower_from unicode_lower).
Local Abbreviation lower := (Py.lower unicode_lower).

Lemma lower_at_ascii (before after : pystr) (c : codepoint) :
  c < 128 -> lower_at unicode_lower before c after = [ascii_fold c].
Proof.
  intros Hc. unfold lower_at, ascii_fold.
  destruct (is_ascii_upper c); [reflexivity |].
  apply N.ltb_lt in Hc. rewrite Hc. reflexivity.
Qed.

(** An ASCII run is lowered letter by letter, whatever surrounds it. *)
Lemma lower_from_ascii_run (m : pystr) :
  Forall (fun c => c < 128) m ->
  forall before rest,
    lower_from before (m ++ rest)
    = map ascii_fold m ++ lower_from (before ++ m) rest.
Proof.
  induction 1 as [|c m Hc _ IH]; intros before rest; simpl.
  - rewrite app_nil_r. reflexivity.
  - rewrite lower_at_ascii by exact Hc. simpl. f_equal.
    rewrite IH, <- app_assoc. reflexivity.
Qed.

(** What comes before a suffix only adds text in front. *)
Lemma lower_from_suffix (l rest before : pystr) :
  exists front, lower_from before (l ++ rest)
                = front ++ lower_from (before ++ l) rest.
Proof.
  revert before. induction l as [|c l IH]; intros before; simpl.
  - exists []. rewrite app_nil_r. reflexivity.
  - destruct (IH (before ++ [c])) as [front Hfront].
    exists (lower_at unicode_lower before c (l ++ rest) ++ front).
    rewrite Hfront, <- !app_assoc. reflexivity.
Qed.

Lemma contains_lower_ascii_run (s m : pystr) :
  Forall (fun c => c < 128) m ->
  contains s m = true ->
  contains (lower s) (map ascii_fold m) = true.
Proof.
  intros Hm Hs. apply contains_spec in Hs as [l [r ->]].
  apply contains_spec. unfold Py.lower.
  destruct (lower_from_suffix l (m ++ r) []) as [front ->].
  rewrite lower_from_ascii_run by exact Hm.
  eexists _, _. reflexivity.
Qed.

Lemma ascii_fold_ascii (c : codepoint) : ascii_fold c < 128 -> c < 128.
Proof.
  unfold ascii_fold, is_ascii_upper.
  destruct ((65 <=? c) && (c <=? 90)) eqn:E; [| tauto].
  apply andb_true_iff in E as [_ H%N.leb_le]. lia.
Qed.

(** Every spelling of an ASCII word that differs from it only in the case
    of its letters is found by looking for the word in the lowered text. *)
Lemma contains_lower_any_case (s w : pystr) :
  Forall (fun c => c < 128) w ->
  contains (map ascii_fold s) w = true ->
  contains (lower s) w = true.
Proof.
  intros Hw Hs. apply contains_spec in Hs as [l [r Hs]].
  apply fmap_app_inv in Hs as (l0 & mr & -> & Hmr & ->).
  symmetry in Hmr. apply fmap_app_inv in Hmr as (m & r0 & -> & -> & ->).
  assert (Hm : Forall (fun c => c < 128) m).
  { rewrite Forall_fmap in Hw. eapply Forall_impl; [exact Hw |].
    intros c. apply ascii_fold_ascii. }
  apply contains_lower_ascii_run; [exact Hm |].
  apply contains_spec. eexists _, _. reflexivity.
Qed.

End Lower.

Lemma or_empty_Some (s : pystr) : or_empty (Some s) = s.
Proof. unfold or_empty. destruct s; reflexivity. Qed.

Lemma or_empty_None : or_empty None = [].
Proof. reflexivity. Qed.

(** *** Exceptions and output *)

Lemma comprehension_pure {A} (cond : A -> result bool) (p : A -> bool) (xs : list A) :
  (forall x, x ∈ xs -> cond x = Ok (p x)) ->
  comprehension cond xs = Ok (List.filter p xs).
Proof.
  induction xs as [|x xs IH]; intros H; simpl; [reflexivity |].
  rewrite H by left. simpl.
  rewrite IH by (intros y Hy; apply H; right; exact Hy). simpl.
  destruct (p x); reflexivity.
Qed.

Lemma bind_returns {A B} (m : IO A) (k : A -> IO B) out out' a :
  m out = (out', Ok a) -> (m ≫= k) out = k a out'.
Proof. intros H. unfold mbind, IO_bind. rewrite H. reflexivity. Qed.

Lemma print_appends (s : pystr) (out : stdout) :
  print s out = (out ++ [s], Ok tt).
Proof. reflexivity. Qed.

(** A loop whose body only prints, prints the bodies' lines in order. *)
Lemma for_each_prints {A} (body : A -> IO unit) (lines : A -> stdout) (xs : list A) :
  (forall x out, body x out = (out ++ lines x, Ok tt)) ->
  forall out, for_each xs body out = (out ++ concat (map lines xs), Ok tt).
Proof.
  intros Hbody. induction xs as [|x xs IH]; intros out; simpl.
  - rewrite app_nil_r. reflexivity.
  - erewrite bind_returns by apply Hbody.
    rewrite IH, <- app_assoc. reflexivity.
Qed.

End PyFacts.

(** ** The script prints the report *)

Module ScriptFacts.
Import Py Fit ParseFit Report PyFacts.

(** The guard [hasattr] keeps the attribute access from raising. *)
Lemma developer_cond_pure (f : FieldData) :
  developer_cond f = Ok (is_developer f).
Proof.
  unfold developer_cond, is_developer, developer_indicator, hasattr, getattr.
  destruct (field f) as [d|]; simpl; [| reflexivity].
  destruct (obj_truth d); [| reflexivity].
  destruct (obj_attrs d !! "is_developer") as [v|]; simpl.
  - destruct (truthy v); reflexivity.
  - reflexivity.
Qed.

Lemma developer_comprehension (record : Message) :
  comprehension developer_cond (fields record) = Ok (developer_fields record).
Proof. apply comprehension_pure. intros f _. apply developer_cond_pure. Qed.

Lemma list_truthy_nonempty {A} (l : list A) : list_truthy l = true <-> l <> [].
Proof. destruct l; simpl; split; congruence. Qed.

Lemma list_truthy_filter {A} (p : A -> bool) (l : list A) :
  list_truthy (List.filter p l) = true <-> exists x, x ∈ l /\ p x = true.
Proof.
  induction l as [|a l IH]; simpl.
  - split; [discriminate | intros [x [Hx _]]; inversion Hx].
  - destruct (p a) eqn:Ha; simpl.
    + split; [intros _; exists a; split; [left | exact Ha] | reflexivity].
    + rewrite IH. split.
      * intros [x [Hx Hp]]. exists x. split; [right; exact Hx | exact Hp].
      * intros [x [Hx Hp]]. inversion Hx; subst; [congruence | eauto].
Qed.

(** The second comprehension is evaluated exactly when the first one kept
    nothing. *)
Lemma select_dev_fields_developer fallback (record : Message) :
  developer_fields record <> [] ->
  select_dev_fields fallback record = Ok (developer_fields record).
Proof.
  intros H. unfold select_dev_fields. rewrite developer_comprehension. simpl.
  apply list_truthy_nonempty in H. rewrite H. reflexivity.
Qed.

Lemma select_dev_fields_fallback fallback (record : Message) :
  developer_fields record = [] ->
  select_dev_fields fallback record = comprehension fallback (fields record).
Proof.
  intros H. unfold select_dev_fields. rewrite developer_comprehension. simpl.
  rewrite H. reflexivity.
Qed.

Section Script.

Variable unicode_lower : pystr -> codepoint -> pystr -> pystr.
Local Abbreviation lower := (Py.lower unicode_lower).
Local Abbreviation lactate_cond := (ParseFit.lactate_cond unicode_lower).
Local Abbreviation dev_fields := (ParseFit.dev_fields unicode_lower).
Local Abbreviation record_step := (ParseFit.record_step unicode_lower).
Local Abbreviation main := (ParseFit.main unicode_lower).
Local Abbreviation reported := (Report.reported unicode_lower).
Local Abbreviation lactate_fields := (Report.lactate_fields unicode_lower).
Local Abbreviation records_report := (Report.records_report unicode_lower).
Local Abbreviation report := (Report.report unicode_lower).

(** The case-sensitive test adds nothing to the case-insensitive one. *)
Lemma capitalised_is_lowered (s : pystr) :
  contains s (lit "Lactate") = true ->
  contains (lower s) (lit "lactate") = true.
Proof.
  intros E. apply (contains_lower_ascii_run unicode_lower) in E.
  - exact E.
  - repeat constructor.
Qed.

Lemma two_checks_are_one (s : pystr) :
  contains (lower s) (lit "lactate") || contains s (lit "Lactate")
  = contains (lower s) (lit "lactate").
Proof.
  destruct (contains s (lit "Lactate")) eqn:E.
  - rewrite (capitalised_is_lowered s E). reflexivity.
  - apply orb_false_r.
Qed.

Lemma lactate_cond_lower (f : FieldData) :
  lactate_cond f = mentions_lactate unicode_lower (or_empty (name f)).
Proof. apply two_checks_are_one. Qed.

Lemma dev_fields_pure (record : Message) :
  dev_fields record
  = Ok (if list_truthy (developer_fields record)
        then developer_fields record else lactate_fields record).
Proof.
  unfold ParseFit.dev_fields.
  destruct (developer_fields record) as [|f l] eqn:E.
  - rewrite select_dev_fields_fallback by exact E. simpl.
    apply comprehension_pure. reflexivity.
  - rewrite select_dev_fields_developer by (rewrite E; discriminate).
    rewrite E. reflexivity.
Qed.

Lemma dev_fields_truthy (record : Message) :
  list_truthy (if list_truthy (developer_fields record)
               then developer_fields record else lactate_fields record)
  = reported record.
Proof.
  unfold Report.reported.
  destruct (list_truthy (developer_fields record)) eqn:E; simpl; [exact E | reflexivity].
Qed.

Lemma record_step_prints (i : nat) (record : Message) (out : stdout) :
  record_step i record out
  = (out ++ (if reported record then record_entry i record else []), Ok tt).
Proof.
  unfold ParseFit.record_step.
  erewrite bind_returns by (unfold lift; rewrite dev_fields_pure; reflexivity).
  rewrite dev_fields_truthy. destruct (reported record).
  - erewrite bind_returns by apply print_appends.
    erewrite bind_returns
      by (apply (for_each_prints _ (fun f => [field_line_units f])); reflexivity).
    rewrite print_appends. unfold record_entry.
    rewrite <- !app_assoc. simpl. do 3 f_equal.
    induction (fields record) as [|f l IH]; simpl; [reflexivity | f_equal; exact IH].
  - rewrite app_nil_r. reflexivity.
Qed.

Lemma records_loop_prints (records : list Message) :
  forall (i : nat) (out : stdout),
    for_each (enumerate_from i records) (fun '(i, record) => record_step i record) out
    = (out ++ records_report i records, Ok tt).
Proof.
  induction records as [|record rest IH]; intros i out; simpl.
  - rewrite app_nil_r. reflexivity.
  - erewrite bind_returns by apply record_step_prints.
    rewrite IH, <- app_assoc. reflexivity.
Qed.

Lemma records_section_prints (fitfile : FitFile) (out : stdout) :
  records_section unicode_lower fitfile out
  = (out ++ records_banner :: records_report 0 (get_messages fitfile "record"), Ok tt).
Proof.
  unfold records_section.
  erewrite bind_returns by apply print_appends.
  unfold enumerate. rewrite records_loop_prints, <- app_assoc. reflexivity.
Qed.

Lemma message_loop_prints (header : pystr) (msgs : list Message) (out : stdout) :
  for_each msgs (fun msg =>
    print header;;
    for_each (fields msg) (fun f => print (field_line f));;
    print []) out
  = (out ++ concat (map (message_entry header) msgs), Ok tt).
Proof.
  apply for_each_prints. intros msg out'.
  erewrite bind_returns by apply print_appends.
  erewrite bind_returns
    by (apply (for_each_prints _ (fun f => [field_line f])); reflexivity).
  rewrite print_appends. unfold message_entry.
  rewrite <- !app_assoc. simpl. do 3 f_equal.
  induction (fields msg) as [|f l IH]; simpl; [reflexivity | f_equal; exact IH].
Qed.

Lemma field_description_section_prints (fitfile : FitFile) (out : stdout) :
  field_description_section fitfile out
  = (out ++ field_description_report fitfile, Ok tt).
Proof.
  unfold field_description_section.
  erewrite bind_returns by apply print_appends.
  rewrite message_loop_prints, <- app_assoc. reflexivity.
Qed.

Lemma developer_data_id_section_prints (fitfile : FitFile) (out : stdout) :
  developer_data_id_section fitfile out
  = (out ++ developer_data_id_report fitfile, Ok tt).
Proof.
  unfold developer_data_id_section.
  erewrite bind_returns by apply print_appends.
  rewrite message_loop_prints, <- app_assoc. reflexivity.
Qed.

(** The script never raises and prints the report, after whatever was on
    the output before it started. *)
Lemma main_prints (fitfile : FitFile) (out : stdout) :
  main fitfile out = (out ++ report fitfile, Ok tt).
Proof.
  unfold ParseFit.main.
  erewrite bind_returns by apply records_section_prints.
  erewrite bind_returns by apply field_description_section_prints.
  rewrite developer_data_id_section_prints. unfold Report.report.
  rewrite <- !app_assoc. reflexivity.
Qed.

End Script.

End ScriptFacts.

(** ** Telling the printed lines apart *)

Module Lines.
Import Py Fit ParseFit Report PyFacts.

Lemma lit_inj (s t : string) : lit s = lit t -> s = t.
Proof.
  unfold lit. intros H.
  rewrite <- (string_of_list_ascii_of_string s), <- (string_of_list_ascii_of_string t).
  f_equal. revert H.
  generalize (list_ascii_of_string s) (list_ascii_of_string t).
  induction l as [|a l IH]; intros [|b k] H; simpl in H; try discriminate; [reflexivity |].
  injection H as Hab Hlk. f_equal; [| apply IH; exact Hlk].
  rewrite <- (ascii_N_embedding a), <- (ascii_N_embedding b), Hab. reflexivity.
Qed.

Lemma str_of_nat_inj (i j : nat) : str_of_nat i = str_of_nat j -> i = j.
Proof.
  unfold str_of_nat. intros H%lit_inj.
  assert (E : Some (Nat.to_uint i) = Some (Nat.to_uint j)).
  { rewrite <- !NilEmpty.usu, H. reflexivity. }
  injection E as E.
  rewrite <- (DecimalNat.Unsigned.of_to i), <- (DecimalNat.Unsigned.of_to j), E.
  reflexivity.
Qed.

Lemma string_of_uint_digits (d : Decimal.uint) :
  Forall is_digit (lit (NilEmpty.string_of_uint d)).
Proof.
  induction d; simpl; constructor; try exact IHd; unfold is_digit; simpl; lia.
Qed.

Lemma str_of_nat_digits (n : nat) : Forall is_digit (str_of_nat n).
Proof. apply string_of_uint_digits. Qed.

(** Two texts that start with a number followed by the same non-digit
    start with the same number. *)
Lemma number_then_separator (a b r1 r2 : pystr) (c : codepoint) :
  Forall is_digit a -> Forall is_digit b -> ~ is_digit c ->
  a ++ c :: r1 = b ++ c :: r2 -> a = b.
Proof.
  intros Ha. revert b. induction Ha as [|x a Hx Ha IH]; intros b Hb Hc E.
  - destruct Hb as [|y b Hy Hb]; [reflexivity |].
    simpl in E. injection E as -> _. contradiction.
  - destruct Hb as [|y b Hy Hb]; simpl in E.
    + injection E as -> _. contradiction.
    + injection E as -> E. f_equal. exact (IH b Hb Hc E).
Qed.

Lemma record_header_index (i j : nat) (ts ts' : pyvalue) :
  record_header i ts = record_header j ts' -> i = j.
Proof.
  unfold record_header. intros H.
  apply app_inv_head in H.
  apply str_of_nat_inj.
  eapply (number_then_separator _ _ _ _ 32); [apply str_of_nat_digits .. | | exact H].
  unfold is_digit. lia.
Qed.

Lemma record_header_heading (i : nat) (ts : pyvalue) : heading (record_header i ts).
Proof. simpl. discriminate. Qed.

Lemma field_line_not_heading (h : pystr) (f : FieldData) :
  heading h -> field_line f <> h.
Proof. intros Hh <-. apply Hh. reflexivity. Qed.

Lemma field_line_units_not_heading (h : pystr) (f : FieldData) :
  heading h -> field_line_units f <> h.
Proof. intros Hh <-. apply Hh. reflexivity. Qed.

(** *** Counting [print] calls *)

Lemma count_prints_app (s : pystr) (a b : stdout) :
  count_prints s (a ++ b) = (count_prints s a + count_prints s b)%nat.
Proof. unfold count_prints. rewrite List.filter_app, length_app. reflexivity. Qed.

Lemma count_prints_cons (s x : pystr) (out : stdout) :
  count_prints s (x :: out)
  = ((if bool_decide (x = s) then 1 else 0) + count_prints s out)%nat.
Proof. unfold count_prints. simpl. destruct (bool_decide (x = s)); reflexivity. Qed.

Lemma count_prints_cons_ne (s x : pystr) (out : stdout) :
  x <> s -> count_prints s (x :: out) = count_prints s out.
Proof. intros H. rewrite count_prints_cons, bool_decide_eq_false_2 by exact H. reflexivity. Qed.

Lemma count_prints_cons_eq (s : pystr) (out : stdout) :
  count_prints s (s :: out) = S (count_prints s out).
Proof. rewrite count_prints_cons, bool_decide_eq_true_2 by reflexivity. reflexivity. Qed.

Lemma count_prints_map_none {A} (s : pystr) (line : A -> pystr) (xs : list A) :
  (forall x, line x <> s) -> count_prints s (map line xs) = 0%nat.
Proof.
  intros H. induction xs as [|x xs IH]; simpl; [reflexivity |].
  rewrite count_prints_cons_ne by apply H. exact IH.
Qed.

Lemma count_prints_concat {A} (s : pystr) (entry : A -> stdout) (n : nat) (xs : list A) :
  (forall x, count_prints s (entry x) = n) ->
  count_prints s (concat (map entry xs)) = (n * length xs)%nat.
Proof.
  intros H. induction xs as [|x xs IH]; simpl.
  - rewrite Nat.mul_0_r. reflexivity.
  - rewrite count_prints_app, H, IH. lia.
Qed.

(** Under a heading [h], an entry counts for one when [h] is its header
    and for nothing otherwise. *)
Lemma count_prints_message_entry (h header : pystr) (msg : Message) :
  heading h ->
  count_prints h (message_entry header msg)
  = if bool_decide (header = h) then 1%nat else 0%nat.
Proof.
  intros Hh. unfold message_entry.
  rewrite count_prints_cons, count_prints_app.
  rewrite count_prints_map_none by (intros f; apply field_line_not_heading, Hh).
  rewrite count_prints_cons_ne by (intros <-; exact Hh).
  destruct (bool_decide (header = h)); reflexivity.
Qed.

Section Records.

Variable unicode_lower : pystr -> codepoint -> pystr -> pystr.
Local Abbreviation reported := (Report.reported unicode_lower).
Local Abbreviation records_report := (Report.records_report unicode_lower).

Lemma count_prints_record_entry (h : pystr) (i : nat) (record : Message) :
  heading h ->
  count_prints h (record_entry i record)
  = if bool_decide (record_header i (get_value record (lit "timestamp")) = h)
    then 1%nat else 0%nat.
Proof.
  intros Hh. unfold record_entry.
  rewrite count_prints_cons, count_prints_app.
  rewrite count_prints_map_none by (intros f; apply field_line_units_not_heading, Hh).
  rewrite count_prints_cons_ne by (intros <-; exact Hh).
  destruct (bool_decide (_ = h)); reflexivity.
Qed.

(** A heading that is no record header is not printed by the records
    loop. *)
Lemma count_prints_records_other (h : pystr) (records : list Message) :
  heading h -> (forall i ts, record_header i ts <> h) ->
  forall k, count_prints h (records_report k records) = 0%nat.
Proof.
  intros Hh Hne. induction records as [|r rest IH]; intros k; simpl; [reflexivity |].
  rewrite count_prints_app, IH. destruct (reported r); [| reflexivity].
  rewrite count_prints_record_entry by exact Hh.
  rewrite bool_decide_eq_false_2 by apply Hne. reflexivity.
Qed.

(** The header of index [i] is not printed for the records from a later
    index on. *)
Lemma count_prints_records_later (i : nat) (ts : pyvalue) (records : list Message) :
  forall k, (i < k)%nat ->
    count_prints (record_header i ts) (records_report k records) = 0%nat.
Proof.
  induction records as [|r rest IH]; intros k Hk; simpl; [reflexivity |].
  rewrite count_prints_app, IH by lia. destruct (reported r); [| reflexivity].
  rewrite count_prints_record_entry by apply record_header_heading.
  rewrite bool_decide_eq_false_2; [reflexivity |].
  intros E%record_header_index. lia.
Qed.

(** The header of a reported record is printed once by the records loop. *)
Lemma count_prints_records_once (records : list Message) :
  forall (k j : nat) (record : Message),
    records !! j = Some record -> reported record = true ->
    count_prints (record_header (k + j) (get_value record (lit "timestamp")))
                 (records_report k records) = 1%nat.
Proof.
  induction records as [|r rest IH]; intros k j record Hj Hrep; [discriminate |].
  cbn [Report.records_report]. rewrite count_prints_app. destruct j as [|j].
  - injection Hj as ->. rewrite Hrep, Nat.add_0_r.
    rewrite count_prints_record_entry by apply record_header_heading.
    rewrite bool_decide_eq_true_2 by reflexivity.
    rewrite count_prints_records_later by lia. reflexivity.
  - replace (k + S j)%nat with (S k + j)%nat by lia.
    rewrite (IH (S k) j record Hj Hrep).
    destruct (reported r); [| reflexivity].
    rewrite count_prints_record_entry by apply record_header_heading.
    rewrite bool_decide_eq_false_2; [reflexivity |].
    intros E%record_header_index. lia.
Qed.

(** The records loop prints the entry of a reported record between what
    it prints for the records before it and for those after it. *)
Lemma records_report_split (records : list Message) :
  forall (k j : nat) (record : Message),
    records !! j = Some record ->
    records_report k records
    = records_report k (take j records)
      ++ (if reported record then record_entry (k + j) record else [])
      ++ records_report (S (k + j)) (drop (S j) records).
Proof.
  induction records as [|r rest IH]; intros k j record Hj; [discriminate |].
  destruct j as [|j].
  - injection Hj as ->. rewrite Nat.add_0_r. simpl. rewrite drop_0. reflexivity.
  - cbn [Report.records_report take drop].
    rewrite (IH (S k) j record Hj), <- app_assoc.
    replace (S k + j)%nat with (k + S j)%nat by lia. reflexivity.
Qed.

End Records.

End Lines.

(** ** Properties of the script *)

Module Properties.
Import Py Fit ParseFit Report PyFacts ScriptFacts Lines Fixtures.

(** Splits a membership in an explicit list into its cases. *)
Ltac each_member :=
  repeat match goal with
  | H : _ ∈ [] |- _ => inversion H
  | H : _ ∈ _ :: _ |- _ => apply elem_of_cons in H as [-> | H]
  end.

Lemma is_developer_true (f : FieldData) :
  is_developer f = true <-> developer_indicator f = Some true.
Proof. apply bool_decide_eq_true. Qed.

Lemma reported_developer unicode_lower (record : Message) :
  (exists f, f ∈ fields record /\ developer_indicator f = Some true) ->
  reported unicode_lower record = true.
Proof.
  intros [f [Hf Hdev]]. unfold reported. apply orb_true_iff. left.
  apply list_truthy_filter. exists f. split; [exact Hf |].
  apply is_developer_true, Hdev.
Qed.

Lemma reported_lactate unicode_lower (record : Message) :
  (exists f, f ∈ fields record /\ lactate_cond unicode_lower f = true) ->
  reported unicode_lower record = true.
Proof.
  intros H. unfold reported. apply orb_true_iff. right.
  apply list_truthy_filter, H.
Qed.

Lemma report_around_record unicode_lower (fitfile : FitFile) (i : nat) (record : Message) :
  get_messages fitfile "record" !! i = Some record ->
  reported unicode_lower record = true ->
  report unicode_lower fitfile
  = records_banner
    :: records_report unicode_lower 0 (take i (get_messages fitfile "record"))
    ++ record_entry i record
    ++ records_report unicode_lower (S i) (drop (S i) (get_messages fitfile "record"))
    ++ field_description_report fitfile
    ++ developer_data_id_report fitfile.
Proof.
  intros Hi Hrep. unfold report.
  rewrite (records_report_split unicode_lower _ 0 i record Hi), Hrep.
  rewrite Nat.add_0_l, <- !app_assoc. reflexivity.
Qed.

Lemma not_reported unicode_lower (record : Message) :
  (forall f, f ∈ fields record ->
     developer_indicator f <> Some true /\ lactate_cond unicode_lower f = false) ->
  reported unicode_lower record = false.
Proof.
  intros H. apply not_true_iff_false.
  unfold reported, developer_fields, lactate_fields.
  rewrite orb_true_iff, !list_truthy_filter.
  intros [[f [Hf Hdev]] | [f [Hf Hlac]]]; destruct (H f Hf) as [H1 H2].
  - apply H1, is_developer_true, Hdev.
  - congruence.
Qed.

(** Whatever the case of its letters, an occurrence of "lactate" in a name
    is found by the script's test. *)
Lemma any_case_mentions_lactate unicode_lower (s : pystr) :
  contains (map ascii_fold s) (lit "lactate") = true ->
  mentions_lactate unicode_lower s = true.
Proof.
  apply contains_lower_any_case. repeat constructor.
Qed.

(** C1. A record with a field whose developer-origin indicator is present
    and true is printed: the script writes, after the output for the earlier
    records, the record's index and timestamp, then one line per field of
    the record with its name, value and units, then a blank line. Nothing is
    asked of the names of the fields. *)
Theorem developer_record_printed unicode_lower (fitfile : FitFile)
    (i : nat) (record : Message) :
  get_messages fitfile "record" !! i = Some record ->
  (exists f, f ∈ fields record /\ developer_indicator f = Some true) ->
  main unicode_lower fitfile []
  = (records_banner
     :: records_report unicode_lower 0 (take i (get_messages fitfile "record"))
     ++ (record_header i (get_value record (lit "timestamp"))
         :: map field_line_units (fields record) ++ [[]])
     ++ records_report unicode_lower (S i) (drop (S i) (get_messages fitfile "record"))
     ++ field_description_report fitfile
     ++ developer_data_id_report fitfile,
     Ok tt).
Proof.
  intros Hi Hdev. rewrite main_prints, app_nil_l.
  rewrite (report_around_record unicode_lower fitfile i record Hi)
    by (apply reported_developer, Hdev).
  reflexivity.
Qed.

Lemma developer_record_printed_witness :
  main latin1_lower sample_file []
  = (records_banner
     :: records_report latin1_lower 0 [plain_record]
     ++ (lit "Record #1 timestamp=2024-05-01 10:00:00"
         :: [lit "  timestamp: 2024-05-01 10:00:00 (None)";
             lit "  core_temperature: 37.4 (C)"] ++ [[]])
     ++ records_report latin1_lower 2 [lactate_record]
     ++ field_description_report sample_file
     ++ developer_data_id_report sample_file,
     Ok tt).
Proof.
  apply (developer_record_printed latin1_lower sample_file 1 developer_record).
  - reflexivity.
  - exists core_temperature_field. split; [| vm_compute; reflexivity].
    right. left.
Defined.

(** C2. In the fallback filter the case-sensitive test for "Lactate" is
    redundant: for every name, the disjunction of the two tests is the
    case-insensitive test alone. *)
Theorem lactate_checks_redundant unicode_lower (s : pystr) :
  (contains (lower unicode_lower s) (lit "lactate") || contains s (lit "Lactate")
   = contains (lower unicode_lower s) (lit "lactate"))
  /\ forall d v u,
       lactate_cond unicode_lower {| field := d; name := Some s; value := v; units := u |}
       = contains (lower unicode_lower s) (lit "lactate").
Proof.
  split.
  - apply two_checks_are_one.
  - intros d v u. rewrite lactate_cond_lower. simpl.
    rewrite or_empty_Some. reflexivity.
Qed.

(** C3. When some field of the record has a developer-origin indicator that
    is present and true, [dev_fields] is the list of those fields and the
    name filter is not evaluated: the result is the same whatever the second
    condition is, even one that would raise. *)
Theorem fallback_only_without_developer_field unicode_lower (record : Message) :
  List.filter (fun f => bool_decide (developer_indicator f = Some true)) (fields record) <> [] ->
  (forall fallback : FieldData -> result bool,
     select_dev_fields fallback record
     = Ok (List.filter (fun f => bool_decide (developer_indicator f = Some true))
                       (fields record)))
  /\ dev_fields unicode_lower record
     = Ok (List.filter (fun f => bool_decide (developer_indicator f = Some true))
                       (fields record)).
Proof.
  intros H. split.
  - intros fallback. apply select_dev_fields_developer, H.
  - apply select_dev_fields_developer, H.
Qed.

Lemma fallback_only_without_developer_field_witness :
  select_dev_fields (fun f => Raise (AttributeError "name")) developer_record
  = Ok [core_temperature_field].
Proof.
  apply (fallback_only_without_developer_field latin1_lower developer_record).
  vm_compute. discriminate.
Defined.

(** C4. A record without developer-origin field, one of whose fields has a
    name that contains "lactate" in any case, is reported, and reported
    once: its entry is printed at its place among the records, and the
    whole output has exactly one [print] of its header line. *)
Theorem lactate_record_reported_once unicode_lower (fitfile : FitFile)
    (i : nat) (record : Message) :
  get_messages fitfile "record" !! i = Some record ->
  (forall f, f ∈ fields record -> developer_indicator f <> Some true) ->
  (exists f s, f ∈ fields record /\ name f = Some s
               /\ mentions_lactate unicode_lower s = true) ->
  main unicode_lower fitfile []
  = (records_banner
     :: records_report unicode_lower 0 (take i (get_messages fitfile "record"))
     ++ (record_header i (get_value record (lit "timestamp"))
         :: map field_line_units (fields record) ++ [[]])
     ++ records_report unicode_lower (S i) (drop (S i) (get_messages fitfile "record"))
     ++ field_description_report fitfile
     ++ developer_data_id_report fitfile,
     Ok tt)
  /\ count_prints (record_header i (get_value record (lit "timestamp")))
                  (fst (main unicode_lower fitfile [])) = 1%nat.
Proof.
  intros Hi _ (f & s & Hf & Hname & Hs).
  assert (Hrep : reported unicode_lower record = true).
  { apply reported_lactate. exists f. split; [exact Hf |].
    rewrite lactate_cond_lower, Hname, or_empty_Some. exact Hs. }
  rewrite main_prints, app_nil_l. split.
  - rewrite (report_around_record unicode_lower fitfile i record Hi Hrep).
    reflexivity.
  - cbn [fst]. unfold report, field_description_report, developer_data_id_report.
    rewrite count_prints_cons_ne by discriminate.
    rewrite !count_prints_app.
    pose proof (count_prints_records_once unicode_lower _ 0 i record Hi Hrep) as Honce.
    rewrite Nat.add_0_l in Honce. rewrite Honce.
    rewrite !count_prints_cons_ne by discriminate.
    rewrite !(count_prints_concat _ _ 0%nat).
    + reflexivity.
    + intros msg. rewrite count_prints_message_entry by apply record_header_heading.
      reflexivity.
    + intros msg. rewrite count_prints_message_entry by apply record_header_heading.
      reflexivity.
Qed.

Lemma lactate_record_reported_once_witness :
  main latin1_lower sample_file []
  = (records_banner
     :: records_report latin1_lower 0 [plain_record; developer_record]
     ++ (lit "Record #2 timestamp=None"
         :: [lit "  heart_rate: 142 (bpm)";
             lit "  Lactate Threshold: 1.5 (mmol/L)"] ++ [[]])
     ++ records_report latin1_lower 3 []
     ++ field_description_report sample_file
     ++ developer_data_id_report sample_file,
     Ok tt)
  /\ count_prints (lit "Record #2 timestamp=None")
                  (fst (main latin1_lower sample_file [])) = 1%nat.
Proof.
  apply (lactate_record_reported_once latin1_lower sample_file 2 lactate_record).
  - reflexivity.
  - intros f Hf. cbv [lactate_record fields] in Hf.
    each_member; vm_compute; discriminate.
  - exists lactate_threshold_field, (lit "Lactate Threshold").
    split; [right; left | split; vm_compute; reflexivity].
Defined.

(** C5. When no field of any record message has a developer-origin
    indicator that is true, and no field name contains "lactate" in any
    case, the first section of the report is its banner alone: the loop over
    the records prints nothing. *)
Theorem no_match_only_banner unicode_lower (fitfile : FitFile) :
  (forall record f,
     record ∈ get_messages fitfile "record" -> f ∈ fields record ->
     developer_indicator f <> Some true
     /\ forall s, name f = Some s -> mentions_lactate unicode_lower s = false) ->
  records_section unicode_lower fitfile [] = ([records_banner], Ok tt)
  /\ main unicode_lower fitfile []
     = (records_banner
        :: field_description_report fitfile ++ developer_data_id_report fitfile,
        Ok tt).
Proof.
  intros H.
  assert (Hnone : forall k,
    records_report unicode_lower k (get_messages fitfile "record") = []).
  { revert H. generalize (get_messages fitfile "record") as records.
    induction records as [|r rest IH]; intros H k; simpl; [reflexivity |].
    rewrite IH by (intros record f Hr; apply H; right; exact Hr).
    rewrite not_reported; [reflexivity |].
    intros f Hf. destruct (H r f) as [Hdev Hname]; [left | exact Hf |].
    split; [exact Hdev |]. rewrite lactate_cond_lower.
    destruct (name f) as [s|]; [rewrite or_empty_Some; apply Hname | ]; reflexivity. }
  split.
  - rewrite records_section_prints, Hnone. reflexivity.
  - rewrite main_prints. unfold report. rewrite Hnone. reflexivity.
Qed.

Lemma no_match_only_banner_witness :
  records_section latin1_lower plain_file [] = ([records_banner], Ok tt)
  /\ main latin1_lower plain_file []
     = (records_banner
        :: field_description_report plain_file ++ developer_data_id_report plain_file,
        Ok tt).
Proof.
  apply (no_match_only_banner latin1_lower plain_file).
  intros record f Hr Hf.
  change (get_messages plain_file "record") with [plain_record] in Hr.
  each_member. cbv [plain_record fields] in Hf. each_member.
  - split; [vm_compute; discriminate |].
    intros s Hs. simpl in Hs. injection Hs as <-. vm_compute. reflexivity.
  - split; [vm_compute; discriminate |].
    intros s Hs. simpl in Hs. injection Hs as <-. vm_compute. reflexivity.
Defined.




(** C7. Absent optional attributes never make the script raise. The script
    ends normally on every decoded file. A field whose name is [None]
    is matched as if its name were the empty string, so the name filter
    rejects it, and its lines show [None] for the name. A field whose
    definition has no attribute [is_developer], or which has no definition,
    is not a developer field for the first filter. *)
Theorem absent_attributes_tolerated unicode_lower :
  (forall fitfile out, snd (main unicode_lower fitfile out) = Ok tt)
  /\ (forall d v u,
        lactate_cond unicode_lower {| field := d; name := None; value := v; units := u |}
        = lactate_cond unicode_lower {| field := d; name := Some []; value := v; units := u |}
        /\ lactate_cond unicode_lower {| field := d; name := None; value := v; units := u |}
           = false
        /\ field_line_units {| field := d; name := None; value := v; units := u |}
           = lit "  None: " ++ str v ++ lit " (" ++ str (opt_str u) ++ lit ")"
        /\ field_line {| field := d; name := None; value := v; units := u |}
           = lit "  None: " ++ str v)
  /\ (forall truth attrs n v u,
        developer_cond {| field := Some (PyObject truth (delete "is_developer" attrs));
                          name := n; value := v; units := u |}
        = Ok false)
  /\ (forall n v u,
        developer_cond {| field := None; name := n; value := v; units := u |} = Ok false).
Proof.
  split; [| split; [| split]].
  - intros fitfile out. rewrite main_prints. reflexivity.
  - intros d v u. rewrite !lactate_cond_lower. simpl.
    rewrite or_empty_Some, or_empty_None. repeat split.
  - intros truth attrs n v u. unfold developer_cond, hasattr. simpl.
    rewrite lookup_delete_eq.
    rewrite bool_decide_eq_false_2 by (intros [? ?]; discriminate).
    destruct truth; reflexivity.
  - reflexivity.
Qed.

(** C8. The field_description section is its banner followed, for each
    field_description message in the order of the file, by one header
    line "Field Description:", the message's fields in their own order as
    name and value, and a blank line. With N such messages the script makes
    exactly N [print] calls of the header line. *)
Theorem field_descriptions_in_order unicode_lower (fitfile : FitFile) (out : stdout) :
  field_description_section fitfile out
  = (out ++ field_description_banner
         :: concat (map (fun msg =>
                           lit "Field Description:"
                           :: map (fun f => lit "  " ++ str (opt_str (name f))
                                            ++ lit ": " ++ str (value f))
                                  (fields msg)
                           ++ [[]])
                        (get_messages fitfile "field_description")),
     Ok tt)
  /\ count_prints (lit "Field Description:") (fst (main unicode_lower fitfile []))
     = length (get_messages fitfile "field_description").
Proof.
  split; [apply field_description_section_prints |].
  assert (Hh : heading (lit "Field Description:")) by (simpl; discriminate).
  rewrite main_prints, app_nil_l. cbn [fst].
  unfold report, field_description_report, developer_data_id_report.
  rewrite count_prints_cons_ne by discriminate.
  rewrite !count_prints_app.
  rewrite count_prints_records_other
    by (first [exact Hh | intros i ts; discriminate]).
  rewrite !count_prints_cons_ne by discriminate.
  rewrite (count_prints_concat _ _ 1%nat), (count_prints_concat _ _ 0%nat).
  - lia.
  - intros msg. rewrite count_prints_message_entry by exact Hh. reflexivity.
  - intros msg. rewrite count_prints_message_entry by exact Hh. reflexivity.
Qed.

Lemma field_descriptions_in_order_witness :
  field_description_section metadata_file []
  = ([ [LF] ++ lit "=== ALL DEVELOPER FIELD DESCRIPTION MESSAGES ===" ++ [LF];
       lit "Field Description:";
       lit "  field_name: core_temperature";
       lit "  units: C";
       [];
       lit "Field Description:";
       lit "  field_name: lactate";
       lit "  None: 1";
       [] ],
     Ok tt)
  /\ count_prints (lit "Field Description:") (fst (main latin1_lower metadata_file []))
     = 2%nat.
Proof.
  apply (field_descriptions_in_order latin1_lower metadata_file []).
Defined.

Lemma elem_of_filter_true {A} (p : A -> bool) (x : A) (l : list A) :
  x ∈ List.filter p l -> p x = true.
Proof.
  induction l as [|a l IH]; simpl; intros H; [inversion H |].
  destruct (p a) eqn:E; [| exact (IH H)].
  apply elem_of_cons in H as [-> | H]; [exact E | exact (IH H)].
Qed.

Lemma absent_definition_indicator (f : FieldData) :
  definition_absent f = true -> is_developer f = false.
Proof.
  unfold definition_absent, is_developer, developer_indicator.
  destruct (field f) as [d|]; simpl; [| reflexivity].
  destruct (obj_truth d); [discriminate | reflexivity].
Qed.

(** C9. A field whose definition object is [None] or false is rejected by
    the developer-origin filter, whatever attributes the object has. It is
    not among the fields that filter keeps, and when it is in [dev_fields]
    that list is the result of the name filter, which the field passes. *)
Theorem absent_definition_not_developer unicode_lower (record : Message) (f : FieldData) :
  definition_absent f = true ->
  developer_cond f = Ok false
  /\ (forall kept, comprehension developer_cond (fields record) = Ok kept -> f ∉ kept)
  /\ (forall dev, dev_fields unicode_lower record = Ok dev -> f ∈ dev ->
        dev = List.filter (lactate_cond unicode_lower) (fields record)
        /\ lactate_cond unicode_lower f = true).
Proof.
  intros Habs. pose proof (absent_definition_indicator f Habs) as Hf.
  split; [rewrite developer_cond_pure, Hf; reflexivity |]. split.
  - intros kept. rewrite developer_comprehension. intros [= <-] Hin.
    apply elem_of_filter_true in Hin. congruence.
  - intros dev. rewrite dev_fields_pure. intros [= <-] Hin.
    destruct (list_truthy (developer_fields record)).
    + apply elem_of_filter_true in Hin. congruence.
    + split; [reflexivity |]. exact (elem_of_filter_true _ _ _ Hin).
Qed.

Lemma absent_definition_not_developer_witness :
  developer_cond hidden_lactate_field = Ok false
  /\ (forall kept, comprehension developer_cond (fields hidden_record) = Ok kept ->
        hidden_lactate_field ∉ kept)
  /\ (forall dev, dev_fields latin1_lower hidden_record = Ok dev ->
        hidden_lactate_field ∈ dev ->
        dev = List.filter (lactate_cond latin1_lower) (fields hidden_record)
        /\ lactate_cond latin1_lower hidden_lactate_field = true).
Proof.
  apply (absent_definition_not_developer latin1_lower hidden_record hidden_lactate_field).
  reflexivity.
Defined.

(** *** The output depends on what the script reads, and on nothing else *)

Lemma observed_parts (f g : FieldData) :
  observed f = observed g ->
  name f = name g /\ str (value f) = str (value g)
  /\ units f = units g /\ is_developer f = is_developer g.
Proof. unfold observed. intros H. injection H as ? ? ? ?. repeat split; assumption. Qed.

Lemma cons_parts {A} (a b : A) (l k : list A) :
  a :: l = b :: k -> a = b /\ l = k.
Proof. intros H. injection H as -> ->. split; reflexivity. Qed.

Lemma map_observed {B} (h : FieldData -> B) (l1 l2 : list FieldData) :
  (forall f g, observed f = observed g -> h f = h g) ->
  map observed l1 = map observed l2 -> map h l1 = map h l2.
Proof.
  intros Hh. revert l2. induction l1 as [|f l1 IH]; intros [|g l2] E;
    cbn [map] in E; try discriminate; [reflexivity |].
  apply cons_parts in E as [Efg E]. simpl. f_equal; [apply Hh, Efg | apply IH, E].
Qed.

Lemma list_truthy_filter_map {A} (p : A -> bool) (l1 l2 : list A) :
  map p l1 = map p l2 ->
  list_truthy (List.filter p l1) = list_truthy (List.filter p l2).
Proof.
  revert l2. induction l1 as [|a l1 IH]; intros [|b l2] E;
    simpl in E; try discriminate; [reflexivity |].
  injection E as Eab E. simpl. rewrite Eab.
  destruct (p b); [reflexivity | apply IH, E].
Qed.

Lemma get_value_observed (r1 r2 : Message) (wanted : pystr) :
  observed_message r1 = observed_message r2 ->
  str (get_value r1 wanted) = str (get_value r2 wanted).
Proof.
  unfold observed_message, get_value.
  generalize (fields r1) (fields r2).
  induction l as [|f l1 IH]; intros [|g l2] E; cbn [map] in E; try discriminate;
    [reflexivity |].
  apply cons_parts in E as [Efg E].
  destruct (observed_parts f g Efg) as (Ename & Evalue & _).
  simpl. rewrite Ename.
  destruct (bool_decide (name g = Some wanted)); [exact Evalue | apply IH, E].
Qed.

Lemma reported_observed unicode_lower (r1 r2 : Message) :
  observed_message r1 = observed_message r2 ->
  reported unicode_lower r1 = reported unicode_lower r2.
Proof.
  intros E. unfold reported, developer_fields, lactate_fields. f_equal.
  - apply list_truthy_filter_map, map_observed; [| exact E].
    intros f g H. apply (observed_parts f g H).
  - apply list_truthy_filter_map, map_observed; [| exact E].
    intros f g H. unfold lactate_cond.
    destruct (observed_parts f g H) as (-> & _). reflexivity.
Qed.

Lemma record_entry_observed (i : nat) (r1 r2 : Message) :
  observed_message r1 = observed_message r2 ->
  record_entry i r1 = record_entry i r2.
Proof.
  intros E. unfold record_entry, record_header.
  rewrite (get_value_observed r1 r2 _ E). do 2 f_equal.
  apply map_observed; [| exact E].
  intros f g H. unfold field_line_units.
  destruct (observed_parts f g H) as (-> & -> & -> & _). reflexivity.
Qed.

Lemma records_report_observed unicode_lower (rs1 rs2 : list Message) :
  map observed_message rs1 = map observed_message rs2 ->
  forall k, records_report unicode_lower k rs1 = records_report unicode_lower k rs2.
Proof.
  revert rs2. induction rs1 as [|r1 rs1 IH]; intros [|r2 rs2] E k;
    cbn [map] in E; try discriminate; [reflexivity |].
  apply cons_parts in E as [Er E]. simpl.
  rewrite (reported_observed unicode_lower r1 r2 Er), (record_entry_observed k r1 r2 Er).
  f_equal. apply IH, E.
Qed.

Lemma message_entries_observed (header : pystr) (ms1 ms2 : list Message) :
  map observed_message ms1 = map observed_message ms2 ->
  concat (map (message_entry header) ms1) = concat (map (message_entry header) ms2).
Proof.
  revert ms2. induction ms1 as [|m1 ms1 IH]; intros [|m2 ms2] E;
    cbn [map] in E; try discriminate; [reflexivity |].
  apply cons_parts in E as [Em E]. simpl. rewrite (IH ms2 E). do 3 f_equal.
  apply map_observed; [| exact Em].
  intros f g H. unfold field_line.
  destruct (observed_parts f g H) as (-> & -> & _). reflexivity.
Qed.

(** C10. The output is a function of what the script reads of the messages
    it asks for. Two decoded files whose record, field_description and
    developer_data_id messages agree, one by one, on the names, value texts
    and units of their fields and on the developer-origin test, give
    the same text on standard output and the same outcome. This covers two
    runs over the same messages, whatever else the files contain. *)
Theorem output_determined_by_messages unicode_lower (file1 file2 : FitFile) :
  map observed_message (get_messages file1 "record")
  = map observed_message (get_messages file2 "record") ->
  map observed_message (get_messages file1 "field_description")
  = map observed_message (get_messages file2 "field_description") ->
  map observed_message (get_messages file1 "developer_data_id")
  = map observed_message (get_messages file2 "developer_data_id") ->
  text_of (fst (main unicode_lower file1 [])) = text_of (fst (main unicode_lower file2 []))
  /\ snd (main unicode_lower file1 []) = snd (main unicode_lower file2 []).
Proof.
  intros Hrec Hdesc Hid. rewrite !main_prints.
  unfold report, field_description_report, developer_data_id_report.
  rewrite (records_report_observed unicode_lower _ _ Hrec).
  rewrite (message_entries_observed _ _ _ Hdesc).
  rewrite (message_entries_observed _ _ _ Hid).
  split; reflexivity.
Qed.

Lemma output_determined_by_messages_witness :
  text_of (fst (main latin1_lower sample_file []))
  = text_of (fst (main latin1_lower reordered_file []))
  /\ snd (main latin1_lower sample_file []) = snd (main latin1_lower reordered_file []).
Proof.
  apply (output_determined_by_messages latin1_lower sample_file reordered_file);
    vm_compute; reflexivity.
Defined.

End Properties.

(** ** Further properties of the script *)

Module Extras.
Import Py Fit ParseFit Report PyFacts ScriptFacts Lines Fixtures Properties.

(** *** Lines that are not record headers *)

Lemma filter_cons_false {A} (p : A -> bool) (x : A) (l : list A) :
  p x = false -> List.filter p (x :: l) = List.filter p l.
Proof. intros H. simpl. rewrite H. reflexivity. Qed.

Lemma filter_map_none {A} (p : pystr -> bool) (line : A -> pystr) (xs : list A) :
  (forall x, p (line x) = false) -> List.filter p (map line xs) = [].
Proof.
  intros H. induction xs as [|x xs IH]; simpl; [reflexivity |].
  rewrite H. exact IH.
Qed.

Lemma filter_concat_none {A} (p : pystr -> bool) (entry : A -> stdout) (xs : list A) :
  (forall x, List.filter p (entry x) = []) ->
  List.filter p (concat (map entry xs)) = [].
Proof.
  intros H. induction xs as [|x xs IH]; simpl; [reflexivity |].
  rewrite List.filter_app, H, IH. reflexivity.
Qed.

Lemma record_header_is_record_line (i : nat) (ts : pyvalue) :
  is_record_line (record_header i ts) = true.
Proof. apply startswith_spec. eexists. reflexivity. Qed.

Lemma record_entry_record_lines (i : nat) (record : Message) :
  List.filter is_record_line (record_entry i record)
  = [record_header i (get_value record (lit "timestamp"))].
Proof.
  unfold record_entry. cbn [List.filter].
  rewrite record_header_is_record_line, List.filter_app.
  rewrite filter_map_none by reflexivity. reflexivity.
Qed.

Lemma message_entry_record_lines (header : pystr) (msg : Message) :
  is_record_line header = false ->
  List.filter is_record_line (message_entry header msg) = [].
Proof.
  intros H. unfold message_entry. cbn [List.filter].
  rewrite H, List.filter_app, filter_map_none by reflexivity. reflexivity.
Qed.

Lemma records_report_record_lines unicode_lower (records : list Message) :
  forall k,
    List.filter is_record_line (records_report unicode_lower k records)
    = map (fun '(i, record) => record_header i (get_value record (lit "timestamp")))
          (List.filter (fun '(i, record) => reported unicode_lower record)
                       (enumerate_from k records)).
Proof.
  induction records as [|r rest IH]; intros k; simpl; [reflexivity |].
  rewrite List.filter_app, IH. destruct (reported unicode_lower r).
  - rewrite record_entry_record_lines. reflexivity.
  - reflexivity.
Qed.

(** X1. The headers of the record entries, read off the output in order,
    are those of the matched records in file order, each with the index
    the record has among all the record messages: an unmatched record takes
    up an index and prints nothing. *)
Theorem record_headers_are_matched_records unicode_lower (fitfile : FitFile) :
  List.filter is_record_line (fst (main unicode_lower fitfile []))
  = map (fun '(i, record) =>
           lit "Record #" ++ str_of_nat i ++ lit " timestamp="
           ++ str (get_value record (lit "timestamp")))
        (List.filter (fun '(i, record) => reported unicode_lower record)
                     (enumerate (get_messages fitfile "record"))).
Proof.
  rewrite main_prints, app_nil_l. cbn [fst].
  unfold report, field_description_report, developer_data_id_report, enumerate.
  rewrite filter_cons_false by reflexivity.
  rewrite !List.filter_app, records_report_record_lines.
  rewrite !filter_cons_false by reflexivity.
  rewrite !filter_concat_none
    by (intros msg; apply message_entry_record_lines; reflexivity).
  rewrite !app_nil_r. reflexivity.
Qed.

Lemma record_headers_are_matched_records_witness :
  List.filter is_record_line (fst (main latin1_lower sample_file []))
  = [ lit "Record #1 timestamp=2024-05-01 10:00:00";
      lit "Record #2 timestamp=None" ].
Proof.
  apply (record_headers_are_matched_records latin1_lower sample_file).
Defined.

(** *** Records that are not matched *)

Lemma count_prints_records_earlier unicode_lower (i : nat) (ts : pyvalue)
    (records : list Message) :
  forall k, (k + length records <= i)%nat ->
    count_prints (record_header i ts) (records_report unicode_lower k records) = 0%nat.
Proof.
  induction records as [|r rest IH]; intros k Hk; simpl; [reflexivity |].
  simpl in Hk. rewrite count_prints_app, IH by lia.
  destruct (reported unicode_lower r); [| reflexivity].
  rewrite count_prints_record_entry by apply record_header_heading.
  rewrite bool_decide_eq_false_2; [reflexivity |].
  intros E%record_header_index. lia.
Qed.

Lemma count_prints_metadata_heading (h : pystr) (fitfile : FitFile) :
  heading h ->
  h <> field_description_banner -> h <> lit "Field Description:" ->
  h <> developer_data_id_banner -> h <> lit "Developer Data ID:" ->
  count_prints h (field_description_report fitfile ++ developer_data_id_report fitfile)
  = 0%nat.
Proof.
  intros Hh H1 H2 H3 H4. unfold field_description_report, developer_data_id_report.
  rewrite count_prints_app, !count_prints_cons_ne by congruence.
  rewrite !(count_prints_concat _ _ 0%nat); [reflexivity | |];
    intros msg; rewrite count_prints_message_entry by exact Hh;
    rewrite bool_decide_eq_false_2 by congruence; reflexivity.
Qed.

(** X2. A record message none of whose fields has a true developer-origin
    indicator or a name containing "lactate" is left out of the output,
    whatever the other records of the file are: no header with its index is
    printed, for any timestamp value. *)
Theorem unmatched_record_not_printed unicode_lower (fitfile : FitFile)
    (i : nat) (record : Message) (ts : pyvalue) :
  get_messages fitfile "record" !! i = Some record ->
  (forall f, f ∈ fields record ->
     developer_indicator f <> Some true
     /\ forall s, name f = Some s -> mentions_lactate unicode_lower s = false) ->
  count_prints (record_header i ts) (fst (main unicode_lower fitfile [])) = 0%nat.
Proof.
  intros Hi Hnone.
  assert (Hrep : reported unicode_lower record = false).
  { apply not_reported. intros f Hf. destruct (Hnone f Hf) as [Hdev Hname].
    split; [exact Hdev |]. rewrite lactate_cond_lower.
    destruct (name f) as [s|]; [rewrite or_empty_Some; apply Hname |]; reflexivity. }
  rewrite main_prints, app_nil_l. cbn [fst]. unfold report.
  rewrite (records_report_split unicode_lower _ 0 i record Hi), Hrep.
  rewrite count_prints_cons_ne by discriminate.
  rewrite count_prints_app.
  rewrite count_prints_metadata_heading
    by first [apply record_header_heading | discriminate].
  rewrite !count_prints_app.
  rewrite count_prints_records_earlier by (rewrite length_take; lia).
  rewrite count_prints_records_later by lia.
  reflexivity.
Qed.

Lemma unmatched_record_not_printed_witness :
  count_prints (record_header 0 (PyOther true (lit "2024-05-01 10:00:00")))
               (fst (main latin1_lower sample_file [])) = 0%nat.
Proof.
  apply (unmatched_record_not_printed latin1_lower sample_file 0 plain_record).
  - reflexivity.
  - intros f Hf. cbv [plain_record fields] in Hf. each_member.
    + split; [vm_compute; discriminate |].
      intros s Hs. simpl in Hs. injection Hs as <-. vm_compute. reflexivity.
    + split; [vm_compute; discriminate |].
      intros s Hs. simpl in Hs. injection Hs as <-. vm_compute. reflexivity.
Defined.

(** *** The developer_data_id section and the banners *)

(** X3. The developer_data_id section is its banner followed, for each
    developer_data_id message in the order of the file, by the header line
    "Developer Data ID:", the message's fields in their own order as name
    and value, and a blank line; with no such message it is the banner
    alone. Over the whole run the header line is printed once per
    message. *)
Theorem developer_data_ids_in_order unicode_lower (fitfile : FitFile) (out : stdout) :
  developer_data_id_section fitfile out
  = (out ++ developer_data_id_banner
         :: concat (map (fun msg =>
                           lit "Developer Data ID:"
                           :: map (fun f => lit "  " ++ str (opt_str (name f))
                                            ++ lit ": " ++ str (value f))
                                  (fields msg)
                           ++ [[]])
                        (get_messages fitfile "developer_data_id")),
     Ok tt)
  /\ count_prints (lit "Developer Data ID:") (fst (main unicode_lower fitfile []))
     = length (get_messages fitfile "developer_data_id").
Proof.
  split; [apply developer_data_id_section_prints |].
  assert (Hh : heading (lit "Developer Data ID:")) by (simpl; discriminate).
  rewrite main_prints, app_nil_l. cbn [fst].
  unfold report, field_description_report, developer_data_id_report.
  rewrite count_prints_cons_ne by discriminate.
  rewrite !count_prints_app.
  rewrite count_prints_records_other
    by (first [exact Hh | intros i ts; discriminate]).
  rewrite !count_prints_cons_ne by discriminate.
  rewrite (count_prints_concat _ _ 0%nat), (count_prints_concat _ _ 1%nat).
  - lia.
  - intros msg. rewrite count_prints_message_entry by exact Hh. reflexivity.
  - intros msg. rewrite count_prints_message_entry by exact Hh. reflexivity.
Qed.

Lemma developer_data_ids_in_order_witness :
  developer_data_id_section metadata_file []
  = ([ [LF] ++ lit "=== ALL DEVELOPER DATA ID MESSAGES ===" ++ [LF];
       lit "Developer Data ID:";
       lit "  developer_data_index: 0";
       [];
       lit "Developer Data ID:";
       lit "  application_id: (1, 2, 3)";
       lit "  developer_data_index: 1";
       [] ],
     Ok tt)
  /\ count_prints (lit "Developer Data ID:") (fst (main latin1_lower metadata_file []))
     = 2%nat.
Proof.
  apply (developer_data_ids_in_order latin1_lower metadata_file []).
Defined.

Lemma count_prints_banner unicode_lower (b : pystr) (fitfile : FitFile) :
  heading b ->
  (forall i ts, record_header i ts <> b) ->
  b <> lit "Field Description:" -> b <> lit "Developer Data ID:" ->
  count_prints b (report unicode_lower fitfile)
  = ((if bool_decide (records_banner = b) then 1 else 0)
     + (if bool_decide (field_description_banner = b) then 1 else 0)
     + (if bool_decide (developer_data_id_banner = b) then 1 else 0))%nat.
Proof.
  intros Hb Hrec H1 H2.
  unfold report, field_description_report, developer_data_id_report.
  rewrite count_prints_cons, !count_prints_app, !count_prints_cons.
  rewrite count_prints_records_other by assumption.
  rewrite !(count_prints_concat _ _ 0%nat).
  - lia.
  - intros msg. rewrite count_prints_message_entry by exact Hb.
    rewrite bool_decide_eq_false_2 by congruence. reflexivity.
  - intros msg. rewrite count_prints_message_entry by exact Hb.
    rewrite bool_decide_eq_false_2 by congruence. reflexivity.
Qed.

(** X4. Each of the three banners is printed exactly once in a run,
    whatever the file contains: no entry line repeats a banner. *)
Theorem banners_printed_once unicode_lower (fitfile : FitFile) :
  count_prints records_banner (fst (main unicode_lower fitfile [])) = 1%nat
  /\ count_prints field_description_banner (fst (main unicode_lower fitfile [])) = 1%nat
  /\ count_prints developer_data_id_banner (fst (main unicode_lower fitfile [])) = 1%nat.
Proof.
  rewrite main_prints, app_nil_l. cbn [fst].
  repeat split;
    (rewrite count_prints_banner;
     [reflexivity | simpl; discriminate | intros i ts; discriminate
      | discriminate | discriminate]).
Qed.

(** *** Blank separators *)

Lemma count_prints_blank_record_entry (i : nat) (record : Message) :
  count_prints [] (record_entry i record) = 1%nat.
Proof.
  unfold record_entry.
  rewrite count_prints_cons_ne by discriminate.
  rewrite count_prints_app, count_prints_map_none by discriminate.
  reflexivity.
Qed.

Lemma count_prints_blank_message_entry (header : pystr) (msg : Message) :
  header <> [] -> count_prints [] (message_entry header msg) = 1%nat.
Proof.
  intros H. unfold message_entry.
  rewrite count_prints_cons_ne by exact H.
  rewrite count_prints_app, count_prints_map_none by discriminate.
  reflexivity.
Qed.

Lemma count_prints_blank_records unicode_lower (records : list Message) :
  forall k,
    count_prints [] (records_report unicode_lower k records)
    = length (List.filter (reported unicode_lower) records).
Proof.
  induction records as [|r rest IH]; intros k; simpl; [reflexivity |].
  rewrite count_prints_app, IH. destruct (reported unicode_lower r).
  - rewrite count_prints_blank_record_entry. reflexivity.
  - reflexivity.
Qed.

(** X5. Every entry ends with one blank line and nothing else prints one:
    the number of empty [print] calls of a run is the number of matched
    records plus the numbers of field_description and developer_data_id
    messages. *)
Theorem one_blank_line_per_entry unicode_lower (fitfile : FitFile) :
  count_prints [] (fst (main unicode_lower fitfile []))
  = (length (List.filter (reported unicode_lower) (get_messages fitfile "record"))
     + length (get_messages fitfile "field_description")
     + length (get_messages fitfile "developer_data_id"))%nat.
Proof.
  rewrite main_prints, app_nil_l. cbn [fst].
  unfold report, field_description_report, developer_data_id_report.
  rewrite count_prints_cons_ne by discriminate.
  rewrite !count_prints_app, count_prints_blank_records.
  rewrite !count_prints_cons_ne by discriminate.
  rewrite !(count_prints_concat _ _ 1%nat)
    by (intros msg; apply count_prints_blank_message_entry; discriminate).
  lia.
Qed.

(** *** The name filter on ASCII names *)

Lemma lower_ascii unicode_lower (s : pystr) :
  Forall (fun c => c < 128) s -> lower unicode_lower s = map ascii_fold s.
Proof.
  intros Hs. unfold lower.
  rewrite <- (app_nil_r s) at 1.
  rewrite (lower_from_ascii_run unicode_lower s Hs [] []). simpl.
  apply app_nil_r.
Qed.

(** X6. On a name made of ASCII characters only, the name filter accepts
    the field exactly when the name, with its letters A to Z turned to
    small letters, contains "lactate": the outcome does not depend on how
    the interpreter lowers the characters outside ASCII. *)
Theorem ascii_name_match unicode_lower (d : option pyobject) (s : pystr)
    (v : pyvalue) (u : option pystr) :
  Forall (fun c => c < 128) s ->
  lactate_cond unicode_lower {| field := d; name := Some s; value := v; units := u |}
  = contains (map ascii_fold s) (lit "lactate").
Proof.
  intros Hs. rewrite lactate_cond_lower. simpl.
  rewrite or_empty_Some. unfold mentions_lactate.
  rewrite (lower_ascii unicode_lower s Hs). reflexivity.
Qed.

Lemma ascii_name_match_witness :
  lactate_cond latin1_lower
    {| field := None; name := Some (lit "blood_LACTATE (mmol)");
       value := PyNone; units := None |}
  = contains (map ascii_fold (lit "blood_LACTATE (mmol)")) (lit "lactate").
Proof.
  apply (ascii_name_match latin1_lower None (lit "blood_LACTATE (mmol)") PyNone None).
  repeat constructor.
Defined.

(** *** Headers and indices *)

(** X7. The header lines of record entries of different indices differ,
    whatever the timestamp values printed after the index: a header line
    tells which record it belongs to. *)
Theorem record_headers_differ (i j : nat) (ts ts' : pyvalue) :
  i <> j -> record_header i ts <> record_header j ts'.
Proof. intros Hij E. apply Hij. exact (record_header_index i j ts ts' E). Qed.

Lemma record_headers_differ_witness :
  record_header 1 (PyInt 23) <> record_header 12 (PyInt 3).
Proof.
  apply (record_headers_differ 1 12 (PyInt 23) (PyInt 3)). lia.
Defined.

(** *** The selected fields *)

Lemma reported_iff unicode_lower (record : Message) :
  reported unicode_lower record = true
  <-> exists f, f ∈ fields record
                /\ (is_developer f = true \/ lactate_cond unicode_lower f = true).
Proof.
  unfold reported, developer_fields, lactate_fields.
  rewrite orb_true_iff, !list_truthy_filter. split.
  - intros [[f [Hf H]] | [f [Hf H]]]; exists f; tauto.
  - intros [f [Hf [H | H]]]; [left | right]; exists f; tauto.
Qed.

Lemma dev_fields_matched unicode_lower (record : Message) :
  (exists dev, dev_fields unicode_lower record = Ok dev /\ dev <> [])
  <-> reported unicode_lower record = true.
Proof.
  rewrite dev_fields_pure, <- dev_fields_truthy. split.
  - intros [dev [[= <-] Hne]]. apply list_truthy_nonempty, Hne.
  - intros H. eexists. split; [reflexivity |]. apply list_truthy_nonempty, H.
Qed.

(** X8. Whether a record is matched depends on which fields it has, not on
    their order or number: a record that is matched stays matched when
    fields are added to it or its fields are reordered. *)
Theorem matched_with_more_fields unicode_lower (record record' : Message) :
  (forall f, f ∈ fields record -> f ∈ fields record') ->
  (exists dev, dev_fields unicode_lower record = Ok dev /\ dev <> []) ->
  exists dev', dev_fields unicode_lower record' = Ok dev' /\ dev' <> [].
Proof.
  intros Hsub. rewrite !dev_fields_matched, !reported_iff.
  intros [f [Hf H]]. exists f. split; [apply Hsub, Hf | exact H].
Qed.

Lemma matched_with_more_fields_witness :
  exists dev',
    dev_fields latin1_lower
      {| type_name := "record";
         fields := [lactate_threshold_field; timestamp_field; heart_rate_field] |}
    = Ok dev' /\ dev' <> [].
Proof.
  apply (matched_with_more_fields latin1_lower lactate_record).
  - intros f Hf. cbv [lactate_record fields] in Hf. cbv [fields].
    each_member.
    + right. right. left.
    + left.
  - exists [lactate_threshold_field]. split; [vm_compute; reflexivity | discriminate].
Defined.

Lemma filter_sublist {A} (p : A -> bool) (l : list A) :
  List.filter p l `sublist_of` l.
Proof.
  induction l as [|a l IH]; simpl; [constructor |].
  destruct (p a); constructor; exact IH.
Qed.

(** X9. The selection of [dev_fields] never raises, and what it selects is
    a sublist of the record's fields: the fields keep their order and none
    is listed more often than the record has it, also when a name passes
    both name tests. Every selected field passes the developer-origin test
    or the name filter. *)
Theorem dev_fields_sublist unicode_lower (record : Message) :
  exists dev,
    dev_fields unicode_lower record = Ok dev
    /\ dev `sublist_of` fields record
    /\ forall f, f ∈ dev ->
         developer_indicator f = Some true \/ lactate_cond unicode_lower f = true.
Proof.
  rewrite dev_fields_pure. eexists. split; [reflexivity |].
  destruct (list_truthy (developer_fields record)).
  - split; [apply filter_sublist |].
    intros f Hf. left. apply is_developer_true. exact (elem_of_filter_true _ _ _ Hf).
  - split; [apply filter_sublist |].
    intros f Hf. right. exact (elem_of_filter_true _ _ _ Hf).
Qed.

(** *** A file without any message the script asks for *)

(** X10. When the file has no record, field_description or
    developer_data_id message, the script prints the three banners and
    nothing else, and ends normally. *)
Theorem banners_only_without_messages unicode_lower (fitfile : FitFile) :
  get_messages fitfile "record" = [] ->
  get_messages fitfile "field_description" = [] ->
  get_messages fitfile "developer_data_id" = [] ->
  main unicode_lower fitfile []
  = ([records_banner; field_description_banner; developer_data_id_banner], Ok tt).
Proof.
  intros Hrec Hdesc Hid. rewrite main_prints.
  unfold report, field_description_report, developer_data_id_report.
  rewrite Hrec, Hdesc, Hid. reflexivity.
Qed.

Lemma banners_only_without_messages_witness :
  main latin1_lower {| messages := [file_id_message] |} []
  = ([records_banner; field_description_banner; developer_data_id_banner], Ok tt).
Proof.
  apply (banners_only_without_messages latin1_lower {| messages := [file_id_message] |});
    reflexivity.
Defined.

End Extras.
